(** * AIGenerator: the two-round request/response orchestration

    A shallow embedding of [src/backend/ai_generator.py].  The class wraps a
    generative-language client: [generate_response] builds one request, sends
    it, and - when the reply stops normally and a tool manager was passed -
    hands over to [_handle_tool_execution], which runs the requested tools and
    sends one more request.

    The language-model client and the tool manager are outside the file; they
    are taken as functions on an abstract world [W] that may raise.  Python
    dictionaries that the code mutates are [gmap]s; the one dictionary object
    that is reachable from two places ([self.base_params] and
    [api_params["config"]]) lives in the state and is reached through a
    reference, so that a write through either name is seen through the
    other.

    What is assumed of the collaborators: [response.candidates] is a list
    (indexing an empty one raises [IndexError]), [content.parts] is a list,
    [response.text] is a string or [None]; a tool manager that is passed is a
    true object; neither the client nor the tool manager touches the
    instance. *)

From Stdlib Require Import ZArith.
From stdpp Require Import gmap strings list fin_maps.

Open Scope string_scope.

Set Warnings "-register-all".

(** ** Python values *)

(** The values that travel through the adapter without being inspected: tool
    declarations, the arguments of a function call, tool results and the
    entries of the config dictionary.  A dictionary literal that is never
    updated after it is built is kept as the list of its items. *)
Inductive pyval :=
| PNone
| PBool (b : bool)
| PInt (z : Z)
| PStr (s : string)
| PList (l : list pyval)
| PDict (items : list (string * pyval)).

(** Truth value of a Python object in an [if]. *)
Definition truthy (v : pyval) : bool :=
  match v with
  | PNone => false
  | PBool b => b
  | PInt z => negb (z =? 0)%Z
  | PStr s => negb (String.eqb s EmptyString)
  | PList l => match l with [] => false | _ => true end
  | PDict items => match items with [] => false | _ => true end
  end.

Definition str_truthy (s : string) : bool := negb (String.eqb s EmptyString).

(** [if d:] for a dictionary [d]: true when [len(d) != 0]. *)
Definition dict_truthy (d : gmap string pyval) : bool := negb (size d =? 0)%nat.

(** ** The client's response objects *)

Record function_call := {
  fc_name : string;
  fc_args : option (gmap string pyval)
}.

(** A part of the model's content: the attributes the code reads. *)
Record part := {
  part_text : option string;
  part_function_call : option function_call
}.

Record candidate := {
  finish_reason : string;
  content_parts : list part
}.

(** [text] is the client's [response.text] attribute, [None] when the reply
    carries no text. *)
Record response := {
  candidates : list candidate;
  text : option string
}.

(** ** Conversation contents and requests *)

(** The entries of a turn's ["parts"] list. *)
Inductive content_part :=
| TextPart (t : string)                          (* {"text": t} *)
| ModelPart (p : part)                           (* a part object of the reply *)
| FunctionResponse (name : string) (content : pyval).
    (* {"function_response": {"name": name, "response": {"content": content}}} *)

Record turn := {
  role : string;
  parts : list content_part
}.

(** What [generate_content] receives as keyword arguments: the config dictionary is
    recorded with the items it has at the time of the call. *)
Record request := {
  req_model : string;
  req_contents : list turn;
  req_config : option (gmap string pyval)
}.

Inductive exn :=
| IndexError
| Raised (what : string).

(** ** Events, state and the monad of the adapter *)

(** What a call does to its collaborators, in order: each call of the client
    with the request it received and what it answered, each call of the tool
    manager with its arguments and what it answered ([inl] for an exception),
    and the entry into [_handle_tool_execution].  The events are a record of
    the run kept beside the result; the code does not read them. *)
Inductive event :=
| BackendCall (req : request) (out : exn + response)
| HandleToolExecution
| ToolCall (name : string) (kwargs : gmap string pyval) (out : exn + pyval).

(** A reference to a config dictionary: the object [self.base_params] points
    to, or a dictionary created during the call and held by one params
    dictionary only. *)
Inductive cfg_ref :=
| SelfBaseParams
| Fresh (d : gmap string pyval).

(** The params dictionary passed to [generate_content]. *)
Record params := {
  p_model : string;
  p_contents : list turn;
  p_config : option cfg_ref
}.

Definition is_tool_call (e : event) : bool :=
  match e with ToolCall _ _ _ => true | _ => false end.

Definition backend_requests (evs : list event) : list request :=
  omap (fun e => match e with BackendCall r _ => Some r | _ => None end) evs.

Definition tool_invocations (evs : list event) : list (string * gmap string pyval) :=
  omap (fun e => match e with ToolCall n k _ => Some (n, k) | _ => None end) evs.

Definition tool_outputs (evs : list event) : list (string * pyval) :=
  omap (fun e => match e with ToolCall n _ (inr v) => Some (n, v) | _ => None end) evs.

Section Adapter.

(** The world the client and the tools act on. *)
Context {W : Type}.

Definition backend := request -> W -> (exn + response) * W.
Definition tool_manager := string -> gmap string pyval -> W -> (exn + pyval) * W.

Record state := {
  base_params : gmap string pyval;   (* the dictionary self.base_params refers to *)
  world : W
}.

Record run (A : Type) := Run {
  outcome : exn + A;
  final : state;
  events : list event
}.
Global Arguments Run {A} _ _ _.
Global Arguments outcome {A} _.
Global Arguments final {A} _.
Global Arguments events {A} _.

Definition M (A : Type) : Type := state -> run A.

Definition ret {A} (a : A) : M A := fun s => Run (inr a) s [].

Definition raise {A} (e : exn) : M A := fun s => Run (inl e) s [].

Definition bind {A B} (m : M A) (k : A -> M B) : M B :=
  fun s =>
    match m s with
    | Run (inl e) s1 evs => Run (inl e) s1 evs
    | Run (inr a) s1 evs =>
        match k a s1 with
        | Run out s2 evs' => Run out s2 (evs ++ evs')%list
        end
    end.

Notation "'let*' x ':=' c 'in' k" := (bind c (fun x => k))
  (at level 10, x name, c at level 100, k at level 200).

Definition emit (e : event) : M unit := fun s => Run (inr tt) s [e].

Definition get_base_params : M (gmap string pyval) :=
  fun s => Run (inr (base_params s)) s [].

(** [r[k] = v] through a reference. *)
Definition cfg_set (r : cfg_ref) (k : string) (v : pyval) : M cfg_ref :=
  match r with
  | SelfBaseParams =>
      fun s => Run (inr SelfBaseParams)
                   {| base_params := <[k:=v]> (base_params s); world := world s |} []
  | Fresh d => ret (Fresh (<[k:=v]> d))
  end.

(** The items of the dictionary a reference points to. *)
Definition cfg_read (r : cfg_ref) : M (gmap string pyval) :=
  match r with
  | SelfBaseParams => get_base_params
  | Fresh d => ret d
  end.

(** [self.client.models.generate_content], called with the items of [p] as
    keyword arguments. *)
Definition generate_content (client : backend) (p : params) : M response :=
  fun s =>
    let cfg := match p_config p with
               | None => None
               | Some SelfBaseParams => Some (base_params s)
               | Some (Fresh d) => Some d
               end in
    let req := {| req_model := p_model p; req_contents := p_contents p;
                  req_config := cfg |} in
    let '(out, w) := client req (world s) in
    Run out {| base_params := base_params s; world := w |} [BackendCall req out].

(** [tool_manager.execute_tool], called with [name] and the items of
    [kwargs] as keyword arguments. *)
Definition execute_tool (tm : tool_manager) (name : string)
    (kwargs : gmap string pyval) : M pyval :=
  fun s =>
    let '(out, w) := tm name kwargs (world s) in
    Run out {| base_params := base_params s; world := w |} [ToolCall name kwargs out].

(** [xs[0]]. *)
Definition index0 {A} (xs : list A) : M A :=
  match xs with
  | [] => raise IndexError
  | x :: _ => ret x
  end.

End Adapter.

Arguments state : clear implicits.
Arguments run : clear implicits.
Arguments M : clear implicits.
Arguments backend : clear implicits.
Arguments tool_manager : clear implicits.

(** ** The class *)

Definition dquote : string := String (Ascii.ascii_of_nat 34) EmptyString.

(** The class attribute [SYSTEM_PROMPT], character for character (the source
    file's bytes; the two double quotes of the text are [dquote]). *)
Definition SYSTEM_PROMPT : string :=
  " You are an AI assistant specialized in course materials and educational content with access to a comprehensive search tool for course information.

Search Tool Usage:
- Use the search tool **only** for questions about specific course content or detailed educational materials
- **One search per query maximum**
- Synthesize search results into accurate, fact-based responses
- If search yields no results, state this clearly without offering alternatives

Response Protocol:
- **General knowledge questions**: Answer using existing knowledge without searching
- **Course-specific questions**: Search first, then answer
- **No meta-commentary**:
 - Provide direct answers only â€” no reasoning process, search explanations, or question-type analysis
 - Do not mention "
  +:+ dquote +:+ "based on the search results" +:+ dquote +:+ "


All responses must be:
1. **Brief, Concise and focused** - Get to the point quickly
2. **Educational** - Maintain instructional value
3. **Clear** - Use accessible language
4. **Example-supported** - Include relevant examples when they aid understanding
Provide only the direct answer to what was asked.
".

Definition newline : string := String (Ascii.ascii_of_nat 10) EmptyString.

(** An instance: the attributes bound in [__init__] that are never rebound.
    The dictionary [self.base_params] refers to is in the [state]. *)
Record AIGenerator {W : Type} := {
  client : backend W;
  model_name : string
}.
Arguments AIGenerator : clear implicits.

(** The dictionary [__init__] builds for [self.base_params]. *)
Definition initial_base_params : gmap string pyval :=
  <["max_output_tokens" := PInt 800]> (<["temperature" := PInt 0]> ∅).

(** {"parts": [{"text": system_content}]} *)
Definition system_instruction (system_content : string) : pyval :=
  PDict [("parts", PList [PDict [("text", PStr system_content)]])].

(** {"function_declarations": [tool]} *)
Definition gemini_tool (tool : pyval) : pyval :=
  PDict [("function_declarations", PList [tool])].

(** {"role": "user", "parts": [{"text": query}]} *)
Definition user_turn (query : string) : turn :=
  {| role := "user"; parts := [TextPart query] |}.

(** {"role": "model", "parts": ps} *)
Definition model_turn (ps : list part) : turn :=
  {| role := "model"; parts := ModelPart <$> ps |}.

(** Lines 60-64: the system content. *)
Definition system_content_of (conversation_history : option string) : string :=
  match conversation_history with
  | Some h =>
      if str_truthy h
      then SYSTEM_PROMPT +:+ newline +:+ newline +:+ "Previous conversation:"
           +:+ newline +:+ h
      else SYSTEM_PROMPT
  | None => SYSTEM_PROMPT
  end.

(** Lines 127-131: the keyword arguments a function call is executed with. *)
Definition tool_args_of (fc : function_call) : gmap string pyval :=
  let tool_args :=
    match fc_args fc with
    | Some a => if dict_truthy a then a else ∅
    | None => ∅
    end in
  match tool_args !! "query" with
  | None =>
      if String.eqb (fc_name fc) "search_course_content"
      then <["query" := PStr "default query"]> tool_args
      else tool_args
  | Some _ => tool_args
  end.

Definition set_config (p : params) (r : cfg_ref) : params :=
  {| p_model := p_model p; p_contents := p_contents p; p_config := Some r |}.

(** [p.get("config", {})] *)
Definition get_config_or_new (p : params) : cfg_ref :=
  match p_config p with
  | Some r => r
  | None => Fresh ∅
  end.

Section Calls.

Context {W : Type}.

Notation "'let*' x ':=' c 'in' k" := (bind c (fun x => k))
  (at level 10, x name, c at level 100, k at level 200).

(** [__init__]: the state a new instance starts from. *)
Definition init (w : W) : state W :=
  {| base_params := initial_base_params; world := w |}.

(** Lines 122-145: the loop over the parts of the reply. *)
Fixpoint execute_tool_calls (tm : tool_manager W) (ps : list part)
    (tool_results : list content_part) : M W (list content_part) :=
  match ps with
  | [] => ret tool_results
  | p :: rest =>
      match part_function_call p with
      | Some fc =>
          let* tool_result := execute_tool tm (fc_name fc) (tool_args_of fc) in
          execute_tool_calls tm rest
            (tool_results ++ [FunctionResponse (fc_name fc) tool_result])%list
      | None => execute_tool_calls tm rest tool_results
      end
  end.

(** Lines 103-167.  The first step records the entry in the events; the
    rest follows the body statement by statement. *)
Definition _handle_tool_execution (self : AIGenerator W)
    (initial_response : response) (api_params : params)
    (tm : tool_manager W) : M W (option string) :=
  let* _ := emit HandleToolExecution in
  let contents := p_contents api_params in
  let* c0 := index0 (candidates initial_response) in
  let contents := (contents ++ [model_turn (content_parts c0)])%list in
  let* tool_results := execute_tool_calls tm (content_parts c0) [] in
  let contents :=
    match tool_results with
    | [] => contents
    | _ => (contents ++ [{| role := "user"; parts := tool_results |}])%list
    end in
  let final_params :=
    {| p_model := model_name self; p_contents := contents; p_config := None |} in
  let* bp := get_base_params in
  let final_params :=
    if dict_truthy bp then set_config final_params SelfBaseParams
    else final_params in
  let* cfg :=
    match p_config api_params with
    | Some r => cfg_read r
    | None => ret ∅
    end in
  let* final_params :=
    match cfg !! "system_instruction" with
    | Some v =>
        if truthy v
        then let* r := cfg_set (get_config_or_new final_params)
                               "system_instruction" v in
             ret (set_config final_params r)
        else ret final_params
    | None => ret final_params
    end in
  let* final_response := generate_content (client self) final_params in
  ret (text final_response).

(** [if tools:] for [None] or a list. *)
Definition tools_truthy (tools : option (list pyval)) : bool :=
  match tools with
  | Some (_ :: _) => true
  | _ => false
  end.

(** Lines 42-101.  [tm] is the argument [tool_manager]; the result is
    [response.text], a string or [None]. *)
Definition generate_response (self : AIGenerator W) (query : string)
    (conversation_history : option string) (tools : option (list pyval))
    (tm : option (tool_manager W)) : M W (option string) :=
  let system_content := system_content_of conversation_history in
  let api_params :=
    {| p_model := model_name self; p_contents := [user_turn query];
       p_config := None |} in
  let* bp := get_base_params in
  let api_params :=
    if dict_truthy bp then set_config api_params SelfBaseParams
    else api_params in
  let* api_params :=
    if str_truthy system_content
    then let* r := cfg_set (get_config_or_new api_params) "system_instruction"
                           (system_instruction system_content) in
         ret (set_config api_params r)
    else ret api_params in
  let* api_params :=
    if tools_truthy tools
    then let* r := cfg_set (get_config_or_new api_params) "tools"
                           (PList (gemini_tool <$> default [] tools)) in
         ret (set_config api_params r)
    else ret api_params in
  let* response := generate_content (client self) api_params in
  let* c0 := index0 (candidates response) in
  match tm with
  | Some t =>
      if String.eqb (finish_reason c0) "STOP"
      then _handle_tool_execution self response api_params t
      else ret (text response)
  | None => ret (text response)
  end.

End Calls.

(** ** Reading a run *)

(** The function calls among the parts of a reply, in their order. *)
Definition function_calls (ps : list part) : list function_call :=
  omap part_function_call ps.

(** The name and keyword arguments a function call is executed with. *)
Definition invocation_of (fc : function_call) : string * gmap string pyval :=
  (fc_name fc, tool_args_of fc).

Definition result_part (nv : string * pyval) : content_part :=
  FunctionResponse nv.1 nv.2.

Definition is_function_response (c : content_part) : bool :=
  match c with FunctionResponse _ _ => true | _ => false end.

(** A turn that carries tool results: role "user", function responses only. *)
Definition is_tool_result_turn (t : turn) : bool :=
  String.eqb (role t) "user" && forallb is_function_response (parts t).

Definition tool_result_turns (contents : list turn) : list turn :=
  List.filter is_tool_result_turn contents.

(** Whether [_handle_tool_execution] was entered. *)
Definition entered_tool_path (evs : list event) : bool :=
  existsb (fun e => match e with HandleToolExecution => true | _ => false end) evs.

(** The exceptions raised by tool invocations. *)
Definition tool_failures (evs : list event) : list exn :=
  omap (fun e => match e with ToolCall _ _ (inl x) => Some x | _ => None end) evs.

(** The system instruction a request is sent with. *)
Definition sent_system_instruction (req : request) : option pyval :=
  match req_config req with
  | Some d => d !! "system_instruction"
  | None => None
  end.

(** The tool declarations a request is sent with. *)
Definition sent_tools (req : request) : option pyval :=
  match req_config req with
  | Some d => d !! "tools"
  | None => None
  end.

(** ** Concrete collaborators

    A client that answers from a script (the world counts its calls) and tool
    managers that return or raise a fixed value. *)
Module Script.

Definition scripted (replies : list (exn + response)) : backend nat :=
  fun _ n => (default (inl (Raised "no reply left")) (replies !! n), S n).

Definition const_tool (v : pyval) : tool_manager nat :=
  fun _ _ n => (inr v, n).

Definition failing_tool (what : string) : tool_manager nat :=
  fun _ _ n => (inl (Raised what), n).

Definition generator (replies : list (exn + response)) : AIGenerator nat :=
  {| client := scripted replies; model_name := "gemini" |}.

(** A reply made of one call of the search tool without arguments. *)
Definition search_call_part : part :=
  {| part_text := None;
     part_function_call :=
       Some {| fc_name := "search_course_content"; fc_args := None |} |}.

Definition text_part (t : string) : part :=
  {| part_text := Some t; part_function_call := None |}.

Definition reply (reason : string) (ps : list part) (t : option string) : response :=
  {| candidates := [{| finish_reason := reason; content_parts := ps |}];
     text := t |}.

Definition search_tool : pyval :=
  PDict [("name", PStr "search_course_content");
         ("description", PStr "Search course materials")].

(** The replies of the scripts below. *)
Definition search_reply : response := reply "STOP" [search_call_part] None.

Definition answer_reply : response :=
  reply "STOP" [text_part "answer"] (Some "answer").

Definition hello_reply : response :=
  reply "STOP" [text_part "hello"] (Some "hello").

Definition truncated_reply : response := reply "MAX_TOKENS" [] None.

Definition found_tool : tool_manager nat := const_tool (PStr "found").

(** A search round: one tool declaration, a reply that asks for the search
    tool without arguments, then the final answer. *)
Definition search_round : run nat (option string) :=
  generate_response (generator [inr search_reply; inr answer_reply]) "q" None
    (Some [search_tool]) (Some found_tool) (init 0).

(** The same round with a tool manager that raises. *)
Definition failed_round : run nat (option string) :=
  generate_response (generator [inr search_reply; inr answer_reply]) "q" None
    (Some [search_tool]) (Some (failing_tool "boom")) (init 0).

(** A tool manager is passed, but the reply is a plain text answer. *)
Definition plain_round : run nat (option string) :=
  generate_response (generator [inr hello_reply; inr answer_reply]) "q" None
    None (Some found_tool) (init 0).


(** No tools, no tool manager, and a reply without text. *)
Definition truncated_call : run nat (option string) :=
  generate_response (generator [inr truncated_reply]) "q" None None None (init 0).

(** A call with a conversation history. *)
Definition call_with_history : run nat (option string) :=
  generate_response (generator [inr hello_reply]) "q" (Some "User: hi") None
    None (init 0).

(** A reply without candidates that still has a text. *)
Definition no_candidates_reply : response :=
  {| candidates := []; text := Some "late" |}.

(** A reply that asks for the search tool twice. *)
Definition two_calls_reply : response :=
  reply "STOP" [search_call_part; search_call_part] None.

(** One instance used for two calls in a row. *)
Definition twice : AIGenerator nat :=
  generator [inr search_reply; inr answer_reply; inr hello_reply].

(** The client raises on the first request. *)
Definition quota : AIGenerator nat := generator [inl (Raised "quota")].

Definition quota_call : run nat (option string) :=
  generate_response quota "q" None None (Some found_tool) (init 0).

(** A search round whose follow-up reply has no candidates. *)
Definition unexamined : AIGenerator nat :=
  generator [inr search_reply; inr no_candidates_reply].

Definition unexamined_round : run nat (option string) :=
  generate_response unexamined "q" None (Some [search_tool]) (Some found_tool)
    (init 0).

(** The initial reply has no candidates; a tool manager is passed. *)
Definition empty_call : run nat (option string) :=
  generate_response (generator [inr no_candidates_reply]) "q" None None
    (Some found_tool) (init 0).

(** Two function calls, and a tool manager that raises at the first. *)
Definition two_calls_failed : run nat (option string) :=
  generate_response (generator [inr two_calls_reply; inr answer_reply]) "q"
    None None (Some (failing_tool "boom")) (init 0).

(** The second call on [twice], after a search round, without tools. *)
Definition later_call : run nat (option string) :=
  generate_response twice "again" None None None
    (final (generate_response twice "q" None (Some [search_tool])
              (Some found_tool) (init 0))).




(** A function call of another tool, with two arguments. *)
Definition outline_call : function_call :=
  {| fc_name := "get_course_outline";
     fc_args := Some (<["course" := PStr "MCP"]> (<["limit" := PInt 3]> ∅)) |}.

End Script.

(** * What a call sends and leaves behind

    Closed forms of the requests and of the final dictionary, and the shapes
    a run can have; the lemmas of the next part prove that the code computes
    them. *)

Section Descriptions.

Context {W : Type}.

Implicit Types (s : state W) (tm : tool_manager W) (self : AIGenerator W).

(** ** The two phases of a call *)

(** The dictionary a reference reads as in state [s]. *)
Definition config_view (p : params) s : gmap string pyval :=
  match p_config p with
  | Some SelfBaseParams => base_params s
  | Some (Fresh d) => d
  | None => ∅
  end.

(** What lines 77-91 write into the config dictionary [d]. *)
Definition config_written (hist : option string) (tools : option (list pyval))
    (d : gmap string pyval) : gmap string pyval :=
  let d := <["system_instruction" := system_instruction (system_content_of hist)]> d in
  if tools_truthy tools
  then <["tools" := PList (gemini_tool <$> default [] tools)]> d
  else d.

(** The params dictionary and the state at the first call of the client. *)
Definition initial_params self (query : string) (hist : option string)
    (tools : option (list pyval)) s : params :=
  {| p_model := model_name self; p_contents := [user_turn query];
     p_config := Some (if dict_truthy (base_params s) then SelfBaseParams
                       else Fresh (config_written hist tools ∅)) |}.

Definition initial_state (hist : option string) (tools : option (list pyval))
    s : state W :=
  {| base_params := if dict_truthy (base_params s)
                    then config_written hist tools (base_params s)
                    else base_params s;
     world := world s |}.

Definition initial_request self (query : string) (hist : option string)
    (tools : option (list pyval)) s : request :=
  {| req_model := model_name self; req_contents := [user_turn query];
     req_config := Some (config_written hist tools
                           (if dict_truthy (base_params s) then base_params s else ∅)) |}.

Definition with_world s (w : W) : state W :=
  {| base_params := base_params s; world := w |}.

(** A run that starts with one more event. *)
Definition after_event {A} (e : event) (r : run W A) : run W A :=
  Run (outcome r) (final r) (e :: events r).

(** The conversation of the follow-up request. *)
Definition followup_contents (ap : params) (c : candidate)
    (results : list content_part) : list turn :=
  (p_contents ap ++ [model_turn (content_parts c)] ++
   match results with
   | [] => []
   | _ => [{| role := "user"; parts := results |}]
   end)%list.

(** The config the follow-up request is sent with, and the dictionary of
    [self.base_params] afterwards, when the tools have run and left state [s]. *)
Definition followup_config (ap : params) s : option (gmap string pyval) :=
  let bp := base_params s in
  let plain := if dict_truthy bp then Some bp else None in
  match config_view ap s !! "system_instruction" with
  | Some v =>
      if truthy v
      then Some (<["system_instruction" := v]> (if dict_truthy bp then bp else ∅))
      else plain
  | None => plain
  end.

Definition followup_base_params (ap : params) s : gmap string pyval :=
  let bp := base_params s in
  match config_view ap s !! "system_instruction" with
  | Some v => if truthy v && dict_truthy bp
              then <["system_instruction" := v]> bp else bp
  | None => bp
  end.

Definition followup_request self (ap : params) (c : candidate)
    (results : list content_part) s : request :=
  {| req_model := model_name self;
     req_contents := followup_contents ap c results;
     req_config := followup_config ap s |}.

Definition text_of (out : exn + response) : exn + option string :=
  match out with
  | inl e => inl e
  | inr r => inr (text r)
  end.

(** The tool-result turn built from the outputs of the tools, if any. *)
Definition tool_result_turn (outs : list (string * pyval)) : list turn :=
  match outs with
  | [] => []
  | _ => [{| role := "user"; parts := result_part <$> outs |}]
  end.

(** Every run of [generate_response] has one of five shapes, told apart by
    what the client answered and by what the tools did. *)
Inductive call_shape self (query : string) (hist : option string)
    (tools : option (list pyval)) (otm : option (tool_manager W)) s :
    run W (option string) -> Prop :=
| shape_backend_error e st :
    (client self (initial_request self query hist tools s) (world s)).1 = inl e ->
    call_shape self query hist tools otm s
      (Run (inl e) st [BackendCall (initial_request self query hist tools s) (inl e)])
| shape_no_candidate resp st :
    (client self (initial_request self query hist tools s) (world s)).1 = inr resp ->
    candidates resp = [] ->
    call_shape self query hist tools otm s
      (Run (inl IndexError) st
         [BackendCall (initial_request self query hist tools s) (inr resp)])
| shape_direct resp c cs st :
    (client self (initial_request self query hist tools s) (world s)).1 = inr resp ->
    candidates resp = c :: cs ->
    otm = None \/ String.eqb (finish_reason c) "STOP" = false ->
    call_shape self query hist tools otm s
      (Run (inr (text resp)) st
         [BackendCall (initial_request self query hist tools s) (inr resp)])
| shape_tool_error resp c cs tm tevs e st :
    (client self (initial_request self query hist tools s) (world s)).1 = inr resp ->
    candidates resp = c :: cs ->
    otm = Some tm ->
    String.eqb (finish_reason c) "STOP" = true ->
    Forall (fun ev => is_tool_call ev = true) tevs ->
    tool_failures tevs = [e] ->
    tool_invocations tevs `prefix_of` (invocation_of <$> function_calls (content_parts c)) ->
    call_shape self query hist tools otm s
      (Run (inl e) st
         (BackendCall (initial_request self query hist tools s) (inr resp)
          :: HandleToolExecution :: tevs))
| shape_followup resp c cs tm tevs req2 out2 st :
    (client self (initial_request self query hist tools s) (world s)).1 = inr resp ->
    candidates resp = c :: cs ->
    otm = Some tm ->
    String.eqb (finish_reason c) "STOP" = true ->
    Forall (fun ev => is_tool_call ev = true) tevs ->
    tool_failures tevs = [] ->
    tool_invocations tevs = invocation_of <$> function_calls (content_parts c) ->
    length (tool_outputs tevs) = length (function_calls (content_parts c)) ->
    req_model req2 = model_name self ->
    req_contents req2 =
      ([user_turn query; model_turn (content_parts c)]
       ++ tool_result_turn (tool_outputs tevs))%list ->
    sent_system_instruction req2 =
      Some (system_instruction (system_content_of hist)) ->
    (dict_truthy (base_params s) = true ->
     req_config req2 = req_config (initial_request self query hist tools s)) ->
    call_shape self query hist tools otm s
      (Run (text_of out2) st
         (BackendCall (initial_request self query hist tools s) (inr resp)
          :: HandleToolExecution :: tevs ++ [BackendCall req2 out2])).

(** The states an instance can be in: built by [__init__], then used for
    any number of calls, with the world changing freely in between. *)
Inductive reachable : state W -> Prop :=
| reachable_init w : reachable (init w)
| reachable_world s w : reachable s -> reachable (with_world s w)
| reachable_call self query hist tools otm s :
    reachable s ->
    reachable (final (generate_response self query hist tools otm s)).

End Descriptions.

Section Proofs.

Context {W : Type}.

Implicit Types (s : state W) (tm : tool_manager W) (self : AIGenerator W).

(** ** The loop over the parts *)

Lemma SYSTEM_PROMPT_nonempty : String.eqb SYSTEM_PROMPT EmptyString = false.
Proof. reflexivity. Qed.

Lemma append_nonempty (a b : string) :
  String.eqb a EmptyString = false -> String.eqb (a +:+ b) EmptyString = false.
Proof. destruct a; simpl; [discriminate | reflexivity]. Qed.

Lemma system_content_truthy (h : option string) :
  str_truthy (system_content_of h) = true.
Proof.
  unfold str_truthy, system_content_of.
  destruct h as [h|]; [destruct (str_truthy h)|];
    rewrite ?append_nonempty; auto using SYSTEM_PROMPT_nonempty.
Qed.

Lemma system_instruction_truthy (c : string) :
  truthy (system_instruction c) = true.
Proof. reflexivity. Qed.

Lemma dict_truthy_insert (k : string) (v : pyval) (d : gmap string pyval) :
  dict_truthy (<[k:=v]> d) = true.
Proof.
  unfold dict_truthy. apply negb_true_iff, Nat.eqb_neq.
  apply map_size_non_empty_iff, insert_non_empty.
Qed.

Lemma function_calls_cons (p : part) (ps : list part) :
  function_calls (p :: ps) =
  match part_function_call p with
  | Some fc => fc :: function_calls ps
  | None => function_calls ps
  end.
Proof. reflexivity. Qed.

Lemma only_tool_calls_no_backend (evs : list event) :
  Forall (fun e => is_tool_call e = true) evs ->
  backend_requests evs = [] /\ HandleToolExecution ∉ evs.
Proof.
  induction 1 as [|e evs He _ [IH1 IH2]]; [split; [done | apply not_elem_of_nil]|].
  destruct e; try discriminate. split; [exact IH1|].
  intros [?|?]%elem_of_cons; [discriminate | contradiction].
Qed.

Lemma execute_tool_calls_spec tm (ps : list part) :
  forall (acc : list content_part) s,
    let r := execute_tool_calls tm ps acc s in
    base_params (final r) = base_params s /\
    Forall (fun e => is_tool_call e = true) (events r) /\
    tool_invocations (events r) `prefix_of` (invocation_of <$> function_calls ps) /\
    match outcome r with
    | inr results =>
        tool_invocations (events r) = invocation_of <$> function_calls ps /\
        results = (acc ++ (result_part <$> tool_outputs (events r)))%list /\
        length (tool_outputs (events r)) = length (function_calls ps) /\
        tool_failures (events r) = []
    | inl e => tool_failures (events r) = [e]
    end.
Proof.
  induction ps as [|p ps IH]; intros acc s; cbn zeta.
  - cbn. rewrite app_nil_r. repeat split; auto.
  - rewrite function_calls_cons. cbn [execute_tool_calls].
    destruct (part_function_call p) as [fc|]; [|apply IH].
    unfold bind, execute_tool.
    destruct (tm (fc_name fc) (tool_args_of fc) (world s)) as [[e|v] w]; cbn.
    + repeat split; auto. apply prefix_cons, prefix_nil.
    + set (s1 := {| base_params := base_params s; world := w |}).
      specialize (IH (acc ++ [FunctionResponse (fc_name fc) v])%list s1).
      cbn zeta in IH.
      destruct (execute_tool_calls tm ps _ s1) as [out sT evs].
      cbn [outcome final events app] in *.
      destruct IH as (Hbp & Hev & Hpre & Hout).
      split; [exact Hbp|]. split; [by constructor|]. split; [by apply prefix_cons|].
      destruct out as [e|results]; [done|].
      destruct Hout as (H1 & H2 & H3 & H4). repeat split; auto.
      * change (invocation_of fc :: tool_invocations evs =
                invocation_of fc :: (invocation_of <$> function_calls ps)).
        by rewrite H1.
      * rewrite H2, <- app_assoc. reflexivity.
      * change (S (length (tool_outputs evs)) = S (length (function_calls ps))).
        by rewrite H3.
Qed.

Lemma bind_ret {A B} (a : A) (k : A -> M W B) s : bind (ret a) k s = k a s.
Proof. unfold bind, ret. by destruct (k a s). Qed.

Lemma bind_get {B} (k : gmap string pyval -> M W B) s :
  bind get_base_params k s = k (base_params s) s.
Proof. unfold bind, get_base_params. by destruct (k _ s). Qed.

Lemma bind_emit {B} (e : event) (k : unit -> M W B) s :
  bind (emit e) k s = after_event e (k tt s).
Proof. unfold bind, emit, after_event. by destruct (k tt s). Qed.

Lemma generate_response_run self query hist tools (otm : option (tool_manager W)) s :
  let req1 := initial_request self query hist tools s in
  let s0 := initial_state hist tools s in
  let out1 := (client self req1 (world s)).1 in
  let s1 := with_world s0 (client self req1 (world s)).2 in
  generate_response self query hist tools otm s =
  match out1 with
  | inl e => Run (inl e) s1 [BackendCall req1 out1]
  | inr resp =>
      match candidates resp, otm with
      | [], _ => Run (inl IndexError) s1 [BackendCall req1 out1]
      | c :: _, Some tm =>
          if String.eqb (finish_reason c) "STOP"
          then after_event (BackendCall req1 out1)
                 (_handle_tool_execution self resp
                    (initial_params self query hist tools s) tm s1)
          else Run (inr (text resp)) s1 [BackendCall req1 out1]
      | c :: _, None => Run (inr (text resp)) s1 [BackendCall req1 out1]
      end
  end.
Proof.
  cbn zeta. unfold generate_response, initial_request, initial_state, initial_params.
  generalize (_handle_tool_execution self); intros handle.
  rewrite bind_get, system_content_truthy. unfold config_written.
  generalize (system_instruction (system_content_of hist)); intros instr.
  generalize (PList (gemini_tool <$> default [] tools)); intros decls.
  destruct s as [bp w]. cbn [base_params world].
  destruct (dict_truthy bp) eqn:Hbp, (tools_truthy tools) eqn:Htools;
    unfold bind, generate_content, with_world, after_event; cbn;
    match goal with |- context [client self ?r w] =>
      destruct (client self r w) as [[e|resp] w1] end; cbn; try reflexivity;
    (destruct (candidates resp) as [|c cs]; cbn; [reflexivity|]);
    (destruct otm as [tm|]; cbn; [|reflexivity]);
    (destruct (String.eqb (finish_reason c) "STOP"); cbn; [|reflexivity]);
    by destruct (handle _ _ _ _).
Qed.

Lemma handle_tool_execution_run self resp (ap : params) tm s c cs :
  candidates resp = c :: cs ->
  let rt := execute_tool_calls tm (content_parts c) [] s in
  _handle_tool_execution self resp ap tm s =
  match outcome rt with
  | inl e => Run (inl e) (final rt) (HandleToolExecution :: events rt)
  | inr results =>
      let req2 := followup_request self ap c results (final rt) in
      let reply := client self req2 (world (final rt)) in
      Run (text_of reply.1)
          {| base_params := followup_base_params ap (final rt); world := reply.2 |}
          (HandleToolExecution :: events rt ++ [BackendCall req2 reply.1])
  end.
Proof.
  intros Hc. cbn zeta. unfold _handle_tool_execution.
  rewrite bind_emit, Hc. cbn [index0]. rewrite bind_ret.
  unfold bind at 1.
  destruct (execute_tool_calls tm (content_parts c) [] s) as [[e|results] sT evs];
    cbn [outcome final events after_event]; [reflexivity|].
  rewrite bind_get.
  unfold followup_request, followup_config, followup_base_params, followup_contents,
    config_view.
  destruct sT as [bp w]. cbn [base_params world].
  destruct (p_config ap) as [[|d]|]; cbn [cfg_read];
    rewrite ?bind_get, ?bind_ret; cbn [base_params]; rewrite ?lookup_empty;
    try match goal with |- context [?m !! "system_instruction"] =>
      destruct (m !! "system_instruction") as [v|] end;
    try destruct (truthy v); destruct (dict_truthy bp);
    destruct results as [|res results];
    unfold bind, generate_content; cbn; rewrite <- ?app_assoc; cbn;
    match goal with |- context [client self ?r w] =>
      destruct (client self r w) as [[e|r2] w2] end; cbn;
    rewrite ?app_nil_r; reflexivity.
Qed.

(** ** The shapes of a call *)

Lemma config_written_system_instruction hist tools (d : gmap string pyval) :
  config_written hist tools d !! "system_instruction" =
  Some (system_instruction (system_content_of hist)).
Proof.
  unfold config_written. destruct (tools_truthy tools).
  - rewrite lookup_insert_ne by discriminate. apply lookup_insert_eq.
  - apply lookup_insert_eq.
Qed.

Lemma initial_view self query hist tools s s' :
  base_params s' = base_params (initial_state hist tools s) ->
  config_view (initial_params self query hist tools s) s' !! "system_instruction" =
  Some (system_instruction (system_content_of hist)) /\
  (dict_truthy (base_params s) = true ->
   config_view (initial_params self query hist tools s) s' = base_params s') /\
  (dict_truthy (base_params s) = false -> dict_truthy (base_params s') = false).
Proof.
  intros Hs'. unfold config_view, initial_params, initial_state in *.
  cbn [p_config base_params] in *.
  destruct (dict_truthy (base_params s)) eqn:Hbp.
  - rewrite Hs'. split; [apply config_written_system_instruction|].
    split; [done|discriminate].
  - split; [apply config_written_system_instruction|].
    split; [discriminate|]. intros _. by rewrite Hs'.
Qed.

Lemma initial_request_system_instruction self query hist tools s :
  sent_system_instruction (initial_request self query hist tools s) =
  Some (system_instruction (system_content_of hist)).
Proof. apply config_written_system_instruction. Qed.

Lemma followup_system_instruction self query hist tools s s' :
  base_params s' = base_params (initial_state hist tools s) ->
  followup_config (initial_params self query hist tools s) s' ≫=
    (.!! "system_instruction") =
  Some (system_instruction (system_content_of hist)).
Proof.
  intros Hs'. destruct (initial_view self query hist tools s s' Hs') as (Hv & _).
  unfold followup_config. rewrite Hv, system_instruction_truthy.
  cbn. apply lookup_insert_eq.
Qed.

(** With a non-empty [self.base_params] the follow-up request is sent with
    the same dictionary as the initial request, "tools" included. *)
Lemma followup_config_is_initial_config self query hist tools s s' :
  base_params s' = base_params (initial_state hist tools s) ->
  dict_truthy (base_params s) = true ->
  followup_config (initial_params self query hist tools s) s' =
  req_config (initial_request self query hist tools s).
Proof.
  intros Hs' Hbp.
  destruct (initial_view self query hist tools s s' Hs') as (Hv & Halias & _).
  unfold followup_config, initial_request. cbn [req_config].
  rewrite Hv, system_instruction_truthy, Hbp.
  assert (Hbp' : base_params s' = config_written hist tools (base_params s)).
  { rewrite Hs'. unfold initial_state. cbn [base_params]. by rewrite Hbp. }
  assert (Ht : dict_truthy (base_params s') = true).
  { rewrite Hbp'. unfold config_written.
    destruct (tools_truthy tools); apply dict_truthy_insert. }
  rewrite Ht, <- Hbp'. f_equal. apply insert_id.
  rewrite <- Halias by done. exact Hv.
Qed.

Lemma followup_leaves_base_params self query hist tools s s' :
  base_params s' = base_params (initial_state hist tools s) ->
  followup_base_params (initial_params self query hist tools s) s' = base_params s'.
Proof.
  intros Hs'.
  destruct (initial_view self query hist tools s s' Hs') as (Hv & Halias & Hempty).
  unfold followup_base_params. rewrite Hv, system_instruction_truthy.
  destruct (dict_truthy (base_params s)) eqn:Hbp.
  - destruct (dict_truthy (base_params s')); cbn; [|done].
    apply insert_id. rewrite <- Halias by done. exact Hv.
  - by rewrite Hempty.
Qed.

Lemma tool_result_turn_results (outs : list (string * pyval)) :
  match result_part <$> outs with
  | [] => []
  | _ => [{| role := "user"; parts := result_part <$> outs |}]
  end = tool_result_turn outs.
Proof. by destruct outs. Qed.

Lemma generate_response_shape self query hist tools otm s :
  call_shape self query hist tools otm s
    (generate_response self query hist tools otm s).
Proof.
  rewrite generate_response_run. cbn zeta.
  set (req1 := initial_request self query hist tools s).
  destruct (client self req1 (world s)) as [out1 w1] eqn:Hcl. cbn [fst snd].
  assert (Hout : (client self req1 (world s)).1 = out1) by (by rewrite Hcl).
  destruct out1 as [e|resp]; [by apply shape_backend_error|].
  destruct (candidates resp) as [|c cs] eqn:Hc; [by apply shape_no_candidate|].
  destruct otm as [tm|]; [|eapply shape_direct; eauto].
  destruct (String.eqb (finish_reason c) "STOP") eqn:Hstop;
    [|eapply shape_direct; eauto].
  set (s1 := with_world (initial_state hist tools s) w1).
  rewrite (handle_tool_execution_run _ _ _ _ _ c cs Hc). cbn zeta.
  destruct (execute_tool_calls_spec tm (content_parts c) [] s1)
    as (Hbp & Hev & Hpre & Hres).
  destruct (execute_tool_calls tm (content_parts c) [] s1) as [[e|results] sT tevs];
    cbn [outcome final events after_event] in *.
  - eapply shape_tool_error; eauto.
  - destruct Hres as (Hinv & -> & Hlen & Hfail). cbn [app].
    eapply shape_followup; eauto.
    + unfold followup_request, followup_contents. cbn [req_contents].
      by rewrite tool_result_turn_results.
    + unfold sent_system_instruction, followup_request. cbn [req_config].
      pose proof (followup_system_instruction self query hist tools s sT Hbp) as H.
      destruct (followup_config _ sT); [exact H | discriminate].
    + intros Htruthy. unfold followup_request. cbn [req_config].
      by apply followup_config_is_initial_config.
Qed.

Lemma generate_response_base_params self query hist tools otm s :
  base_params (final (generate_response self query hist tools otm s)) =
  base_params (initial_state hist tools s).
Proof.
  rewrite generate_response_run. cbn zeta.
  set (req1 := initial_request self query hist tools s).
  destruct (client self req1 (world s)) as [[e|resp] w1]; cbn [fst snd]; [done|].
  destruct (candidates resp) as [|c cs] eqn:Hc; [done|].
  destruct otm as [tm|]; [|done].
  destruct (String.eqb (finish_reason c) "STOP"); [|done].
  set (s1 := with_world (initial_state hist tools s) w1).
  rewrite (handle_tool_execution_run _ _ _ _ _ c cs Hc). cbn zeta.
  destruct (execute_tool_calls_spec tm (content_parts c) [] s1) as (Hbp & _).
  destruct (execute_tool_calls tm (content_parts c) [] s1) as [[e|results] sT tevs];
    cbn [outcome final events after_event base_params] in *; [done|].
  by rewrite followup_leaves_base_params.
Qed.

(** ** Events of a run *)

Lemma tool_failure_elem (evs : list event) name kwargs e :
  ToolCall name kwargs (inl e) ∈ evs -> e ∈ tool_failures evs.
Proof.
  intros H. unfold tool_failures. apply list_elem_of_omap.
  exists (ToolCall name kwargs (inl e)). split; [exact H | reflexivity].
Qed.

Lemma entered_tool_path_spec (evs : list event) :
  HandleToolExecution ∈ evs <-> entered_tool_path evs = true.
Proof.
  unfold entered_tool_path. rewrite existsb_exists. split.
  - intros H. exists HandleToolExecution. by rewrite <- list_elem_of_In.
  - intros (e & Hin & He). destruct e; try discriminate. by rewrite list_elem_of_In.
Qed.

Lemma not_entered_tool_path (evs : list event) :
  entered_tool_path evs = false -> HandleToolExecution ∉ evs.
Proof. rewrite entered_tool_path_spec. by intros ->. Qed.

Lemma tool_failures_after_entry (evs : list event) req out :
  tool_failures (BackendCall req out :: HandleToolExecution :: evs) =
  tool_failures evs.
Proof. reflexivity. Qed.

Lemma only_tool_calls_nil (evs : list event) :
  Forall (fun e => is_tool_call e = true) evs -> tool_invocations evs = [] -> evs = [].
Proof.
  destruct 1 as [|e evs He _]; [done|].
  destruct e; discriminate.
Qed.

Lemma tool_outputs_names (evs : list event) :
  tool_failures evs = [] -> (tool_outputs evs).*1 = (tool_invocations evs).*1.
Proof.
  induction evs as [|e evs IH]; [done|].
  destruct e as [req out| |name kwargs [x|v]]; cbn; auto; [discriminate|].
  intros H. f_equal. by apply IH.
Qed.

Lemma backend_requests_followup (tevs : list event) req1 out1 req2 out2 :
  Forall (fun e => is_tool_call e = true) tevs ->
  backend_requests (BackendCall req1 out1 :: HandleToolExecution :: tevs
                    ++ [BackendCall req2 out2]) = [req1; req2].
Proof.
  intros [H _]%only_tool_calls_no_backend. unfold backend_requests in *. cbn.
  rewrite omap_app, H. reflexivity.
Qed.

Lemma tool_events_followup (tevs : list event) req1 out1 req2 out2 :
  let rest := (HandleToolExecution :: tevs ++ [BackendCall req2 out2])%list in
  tool_invocations (BackendCall req1 out1 :: rest) = tool_invocations tevs /\
  tool_invocations rest = tool_invocations tevs /\
  tool_outputs rest = tool_outputs tevs /\
  tool_failures rest = tool_failures tevs.
Proof.
  cbn zeta. unfold tool_invocations, tool_outputs, tool_failures. cbn.
  rewrite !omap_app. cbn. by rewrite !app_nil_r.
Qed.

Lemma backend_call_in_tools (tevs : list event) req out :
  Forall (fun e => is_tool_call e = true) tevs -> BackendCall req out ∉ tevs.
Proof.
  intros H Hin. rewrite Forall_forall in H. apply H in Hin. discriminate.
Qed.

Lemma result_parts_are_responses (outs : list (string * pyval)) :
  forallb is_function_response (result_part <$> outs) = true.
Proof. induction outs as [|o outs IH]; [done|]. exact IH. Qed.

Lemma user_turn_not_tool_result query : is_tool_result_turn (user_turn query) = false.
Proof. reflexivity. Qed.

Lemma model_turn_not_tool_result (ps : list part) :
  is_tool_result_turn (model_turn ps) = false.
Proof. reflexivity. Qed.

Lemma results_turn_is_tool_result (outs : list (string * pyval)) :
  is_tool_result_turn {| role := "user"; parts := result_part <$> outs |} = true.
Proof.
  unfold is_tool_result_turn. cbn [role parts].
  by rewrite result_parts_are_responses.
Qed.

Lemma tool_result_turns_followup query (ps : list part) (outs : list (string * pyval)) :
  tool_result_turns ([user_turn query; model_turn ps] ++ tool_result_turn outs) =
  tool_result_turn outs.
Proof.
  unfold tool_result_turns. cbn [app List.filter].
  rewrite user_turn_not_tool_result, model_turn_not_tool_result.
  destruct outs as [|o outs]; [reflexivity|].
  cbn [tool_result_turn List.filter].
  by rewrite results_turn_is_tool_result.
Qed.

End Proofs.

(** * The claims *)

Section Claims.

Context {W : Type}.

Implicit Types (s : state W) (tm : tool_manager W) (self : AIGenerator W).

(** Case analysis on the shape of a call. *)
Ltac call_shapes self query hist tools otm s :=
  destruct (generate_response_shape self query hist tools otm s)
    as [e0 st Hcl|resp0 st Hcl Hcand|resp0 c0 cs0 st Hcl Hcand Hdirect
       |resp0 c0 cs0 tm0 tevs e0 st Hcl Hcand Htm Hstop Htools Hfail Hpre
       |resp0 c0 cs0 tm0 tevs req0 out0 st Hcl Hcand Htm Hstop Htools Hfail Hinv
          Hlen Hmodel Hcontents Hsys Hcfg];
  cbn [events outcome final].

Ltac not_in_singleton :=
  match goal with
  | H : _ ∈ [_] |- _ => apply list_elem_of_singleton in H; discriminate H
  end.



(** What line 101 does with a reply that carries no text when the
    tool-execution path is not taken: nothing is checked, the [text]
    attribute - [None] - is what the call returns.  (Only a reply without
    candidates raises, at [candidates[0]].) *)
Lemma missing_text_is_returned self query hist tools otm s req resp rest :
  let r := generate_response self query hist tools otm s in
  events r = BackendCall req (inr resp) :: rest ->
  text resp = None ->
  HandleToolExecution ∉ events r ->
  outcome r = match candidates resp with
              | [] => inl IndexError
              | _ => inr None
              end.
Proof.
  cbn zeta. call_shapes self query hist tools otm s.
  - intros [=].
  - intros [= _ <- _] _ _. by rewrite Hcand.
  - intros [= _ <- _] Htext _. by rewrite Hcand, Htext.
  - intros _ _ Hnot. exfalso. apply Hnot. set_solver.
  - intros _ _ Hnot. exfalso. apply Hnot. set_solver.
Qed.

(** C9: every request of a call - the initial one and the follow-up, if there
    is one - carries under "system_instruction" the payload
    {"parts": [{"text": t}]}, where t is the static system prompt alone when
    the conversation history is absent or empty, and the static prompt
    followed by two newlines, "Previous conversation:", a newline and the
    history when it is not empty.  At least one request is sent. *)
Theorem C9_system_content_sent self query hist tools otm s :
  let r := generate_response self query hist tools otm s in
  backend_requests (events r) <> [] /\
  (hist = None \/ hist = Some EmptyString ->
   forall req, req ∈ backend_requests (events r) ->
     sent_system_instruction req =
     Some (PDict [("parts", PList [PDict [("text", PStr SYSTEM_PROMPT)]])])) /\
  (forall h, hist = Some h -> h <> EmptyString ->
   forall req, req ∈ backend_requests (events r) ->
     sent_system_instruction req =
     Some (PDict [("parts", PList [PDict [("text",
             PStr (SYSTEM_PROMPT +:+ "

Previous conversation:
" +:+ h))]])])).
Proof.
  cbn zeta.
  assert (Hall : forall req,
    req ∈ backend_requests (events (generate_response self query hist tools otm s)) ->
    sent_system_instruction req = Some (system_instruction (system_content_of hist))).
  { pose proof (initial_request_system_instruction self query hist tools s) as H1.
    call_shapes self query hist tools otm s; intros req Hin.
    - apply list_elem_of_singleton in Hin as ->. exact H1.
    - apply list_elem_of_singleton in Hin as ->. exact H1.
    - apply list_elem_of_singleton in Hin as ->. exact H1.
    - apply only_tool_calls_no_backend in Htools as [Hnone _].
      unfold backend_requests in *. cbn in Hin. rewrite Hnone in Hin.
      apply list_elem_of_singleton in Hin as ->. exact H1.
    - rewrite backend_requests_followup in Hin by done.
      apply elem_of_cons in Hin as [->|Hin]; [exact H1|].
      apply list_elem_of_singleton in Hin as ->. exact Hsys. }
  split; [|split].
  - call_shapes self query hist tools otm s; discriminate.
  - intros Hhist req Hin. rewrite (Hall req Hin).
    by destruct Hhist as [->| ->].
  - intros h -> Hh req Hin. rewrite (Hall req Hin).
    unfold system_content_of, str_truthy.
    apply String.eqb_neq in Hh. by rewrite Hh.
Qed.

(** C5: if a tool invocation raises, the call raises that same exception, and
    the only request sent to the client is the initial one: there is no
    follow-up request. *)
Theorem C5_tool_failure_aborts self query hist tools otm s name kwargs e :
  let r := generate_response self query hist tools otm s in
  ToolCall name kwargs (inl e) ∈ events r ->
  outcome r = inl e /\
  exists req1, backend_requests (events r) = [req1] /\
               req_contents req1 = [user_turn query].
Proof.
  cbn zeta. call_shapes self query hist tools otm s; intros Hin;
    try not_in_singleton.
  - apply tool_failure_elem in Hin. rewrite tool_failures_after_entry, Hfail in Hin.
    apply list_elem_of_singleton in Hin as ->. split; [done|].
    apply only_tool_calls_no_backend in Htools as [Hnone _].
    eexists. unfold backend_requests in *. cbn. rewrite Hnone. done.
  - apply tool_failure_elem in Hin.
    destruct (tool_events_followup tevs (initial_request self query hist tools s)
                (inr resp0) req0 out0) as (_ & _ & _ & Hf).
    cbn zeta in Hf. rewrite tool_failures_after_entry in Hin.
    change (tool_failures (HandleToolExecution :: ?l)) with (tool_failures l) in Hf.
    rewrite Hf, Hfail in Hin. by apply elem_of_nil in Hin.
Qed.

(** C4 (as amended): when the reply has N function-call parts and the
    follow-up request is reached, the tool manager has been called exactly N
    times, with the names (and arguments) of the parts in their order; the
    conversation of the follow-up request is the user turn, the model turn and
    - when N is at least 1 - exactly one "user" turn holding the N results in
    order; when N is 0 no such turn is added. *)
Theorem C4_tool_calls_in_order self query hist tools otm s
    req1 resp c cs rest req2 out2 :
  let r := generate_response self query hist tools otm s in
  events r = BackendCall req1 (inr resp) :: rest ->
  candidates resp = c :: cs ->
  BackendCall req2 out2 ∈ rest ->
  let calls := function_calls (content_parts c) in
  tool_invocations rest = invocation_of <$> calls /\
  length (tool_invocations rest) = length calls /\
  (tool_outputs rest).*1 = fc_name <$> calls /\
  req_contents req2 =
    ([user_turn query; model_turn (content_parts c)]
     ++ tool_result_turn (tool_outputs rest))%list /\
  length (tool_result_turns (req_contents req2)) =
    match calls with [] => 0 | _ => 1 end.
Proof.
  cbn zeta. call_shapes self query hist tools otm s;
    intros [= _ <- <-] Hc Hin; try (by apply elem_of_nil in Hin).
  - apply elem_of_cons in Hin as [[=]|Hin].
    by apply backend_call_in_tools in Hin.
  - assert (c = c0) as -> by congruence.
    apply elem_of_cons in Hin as [[=]|Hin].
    apply elem_of_app in Hin as [Hin|Hin]; [by apply backend_call_in_tools in Hin|].
    apply list_elem_of_singleton in Hin as [= -> ->].
    destruct (tool_events_followup tevs (initial_request self query hist tools s)
                (inr resp0) req0 out0) as (_ & Hi & Ho & Hf).
    cbn zeta in Hi, Ho, Hf. rewrite Hi, Ho.
    split; [exact Hinv|]. split; [by rewrite Hinv, length_fmap|].
    split.
    { rewrite tool_outputs_names, Hinv by done.
      rewrite <- list_fmap_compose. reflexivity. }
    split; [exact Hcontents|].
    rewrite Hcontents, tool_result_turns_followup.
    destruct (tool_outputs tevs), (function_calls (content_parts c0));
      cbn in Hlen |- *; congruence.
Qed.

(** C10: when the tool-execution path is entered and the reply has no
    function-call part, no tool is called and no tool-result turn is added,
    yet the follow-up request is sent - with the user turn and the model turn
    only - and the call returns the text of the follow-up reply (or raises
    what the client raised), not the text of the initial reply. *)
Theorem C10_no_tool_calls_still_follow_up self query hist tools tm s
    req1 resp c cs rest :
  let r := generate_response self query hist tools (Some tm) s in
  events r = BackendCall req1 (inr resp) :: rest ->
  candidates resp = c :: cs ->
  finish_reason c = "STOP" ->
  function_calls (content_parts c) = [] ->
  exists req2 out2,
    rest = [HandleToolExecution; BackendCall req2 out2] /\
    req_contents req2 = [user_turn query; model_turn (content_parts c)] /\
    tool_result_turns (req_contents req2) = [] /\
    outcome r = text_of out2.
Proof.
  cbn zeta. call_shapes self query hist tools (Some tm) s;
    intros [= _ <- <-] Hc Hstop' Hnone.
  - congruence.
  - assert (c = c0) as -> by congruence.
    destruct Hdirect as [[=]|Hne]. apply String.eqb_neq in Hne. contradiction.
  - assert (c = c0) as -> by congruence. rewrite Hnone in Hpre.
    apply prefix_nil_inv in Hpre.
    apply only_tool_calls_nil in Hpre as ->; [discriminate | done].
  - assert (c = c0) as -> by congruence. rewrite Hnone in Hinv.
    apply only_tool_calls_nil in Hinv as ->; [|done].
    exists req0, out0. cbn in Hcontents. rewrite Hcontents.
    repeat split; reflexivity.
Qed.

(** A call sends one or two requests: there is at most one follow-up. *)
Lemma at_most_one_follow_up self query hist tools otm s :
  let n := length (backend_requests (events (generate_response self query hist tools otm s))) in
  n = 1 \/ n = 2.
Proof.
  cbn zeta. call_shapes self query hist tools otm s; auto.
  - left. apply only_tool_calls_no_backend in Htools as [Hnone _].
    unfold backend_requests in *. cbn. by rewrite Hnone.
  - right. by rewrite backend_requests_followup.
Qed.

(** On an instance whose [base_params] is not empty - every instance, since
    [__init__] puts two entries in it - all requests of a call are sent with
    one and the same config: what the initial request wrote, "tools"
    included, is in the config of the follow-up request. *)
Lemma follow_up_sends_initial_config self query hist tools otm s :
  dict_truthy (base_params s) = true ->
  forall req,
    req ∈ backend_requests (events (generate_response self query hist tools otm s)) ->
    req_config req = Some (config_written hist tools (base_params s)).
Proof.
  intros Hbp.
  assert (H1 : req_config (initial_request self query hist tools s) =
               Some (config_written hist tools (base_params s))).
  { unfold initial_request. cbn [req_config]. by rewrite Hbp. }
  call_shapes self query hist tools otm s; intros req Hin.
  - apply list_elem_of_singleton in Hin as ->. exact H1.
  - apply list_elem_of_singleton in Hin as ->. exact H1.
  - apply list_elem_of_singleton in Hin as ->. exact H1.
  - apply only_tool_calls_no_backend in Htools as [Hnone _].
    unfold backend_requests in *. cbn in Hin. rewrite Hnone in Hin.
    apply list_elem_of_singleton in Hin as ->. exact H1.
  - rewrite backend_requests_followup in Hin by done.
    apply elem_of_cons in Hin as [->|Hin]; [exact H1|].
    apply list_elem_of_singleton in Hin as ->. by rewrite Hcfg.
Qed.

(** C3: the claim fails on the code.  The dictionary of [self.base_params] is
    the very object put under "config" in the params of the request, so the
    writes of "system_instruction" and "tools" land in it: after any call on a
    new instance it holds the system instruction (and the tool declarations,
    when some were passed) and is no longer the dictionary [__init__] built. *)
Theorem C3_base_params_mutated self query hist tools otm (w : W) :
  let r := generate_response self query hist tools otm (init w) in
  base_params (final r) = config_written hist tools initial_base_params /\
  base_params (final r) !! "system_instruction" =
    Some (system_instruction (system_content_of hist)) /\
  base_params (final r) !! "tools" =
    (if tools_truthy tools then Some (PList (gemini_tool <$> default [] tools))
     else None) /\
  base_params (final r) <> initial_base_params.
Proof.
  cbn zeta. rewrite generate_response_base_params.
  unfold initial_state, init. cbn [base_params].
  change (dict_truthy initial_base_params) with true. cbn match.
  split; [reflexivity|].
  split; [apply config_written_system_instruction|].
  split.
  - unfold config_written. destruct (tools_truthy tools).
    + apply lookup_insert_eq.
    + by rewrite lookup_insert_ne.
  - intros Heq. apply (f_equal (.!! "system_instruction")) in Heq.
    rewrite config_written_system_instruction in Heq. discriminate.
Qed.

End Claims.

(** * Runs against a scripted client *)

(** C1: the claim fails on the code.  A new instance is called with one tool
    declaration and a tool manager; the reply stops with "STOP" and asks for
    the search tool.  Two requests are sent, and the follow-up request has a
    "tools" entry in its config, the same as the initial request: the config
    of the follow-up is the dictionary of [self.base_params], into which the
    initial request wrote the declarations. *)
Theorem C1_follow_up_request_carries_tools :
  let r := Script.search_round in
  sent_tools <$> backend_requests (events r) =
    [Some (PList [gemini_tool Script.search_tool]);
     Some (PList [gemini_tool Script.search_tool])] /\
  entered_tool_path (events r) = true /\
  outcome r = inr (Some "answer").
Proof. vm_compute. repeat split; reflexivity. Qed.

(** C2: the claim fails on the code.  The reply asks for the tool
    "search_course_content" without arguments; the tool manager is called
    with the invented argument query = "default query", no error is raised
    and the call returns the text of the follow-up reply. *)
Theorem C2_missing_query_is_replaced :
  let r := Script.search_round in
  fc_args <$> function_calls [Script.search_call_part] = [None] /\
  tool_invocations (events r) =
    [("search_course_content", {["query" := PStr "default query"]})] /\
  tool_failures (events r) = [] /\
  outcome r = inr (Some "answer").
Proof. vm_compute. repeat split; reflexivity. Qed.

(** C4, as stated, fails when the reply has no function-call part: the
    follow-up request is sent and its conversation holds no tool-result turn
    at all, not one. *)
Lemma C4_counterexample :
  let r := Script.plain_round in
  length (function_calls [Script.text_part "hello"]) = 0 /\
  tool_invocations (events r) = [] /\
  (req_contents <$> backend_requests (events r)) =
    [[user_turn "q"];
     [user_turn "q"; model_turn [Script.text_part "hello"]]] /\
  (forall req2, backend_requests (events r) !! 1 = Some req2 ->
     length (tool_result_turns (req_contents req2)) <> 1).
Proof.
  vm_compute. repeat split; auto. intros req2 [= <-]. discriminate.
Qed.

(** C6: the claim fails on the code.  The reply has one candidate, stopped
    with "MAX_TOKENS", and no text; no tool manager is passed.  The tool path
    is not taken and the call raises nothing: it returns [None], from a
    function annotated [-> str] whose docstring promises the generated
    response as a string. *)
Theorem C6_missing_text_returns_none :
  let r := Script.truncated_call in
  text Script.truncated_reply = None /\
  entered_tool_path (events r) = false /\
  outcome r = inr None /\
  ~ (exists e, outcome r = inl e).
Proof.
  vm_compute. repeat split; auto. intros [e [=]].
Qed.



(** ** The theorems at concrete calls *)



(** The same at a reply without text that stops with "MAX_TOKENS". *)
Lemma missing_text_is_returned_witness :
  events Script.truncated_call =
    [BackendCall (initial_request (Script.generator [inr Script.truncated_reply])
                    "q" None None (init 0)) (inr Script.truncated_reply)] /\
  text Script.truncated_reply = None /\
  (HandleToolExecution ∉ events Script.truncated_call) /\
  outcome Script.truncated_call =
    match candidates Script.truncated_reply with
    | [] => inl IndexError
    | _ => inr None
    end.
Proof.
  assert (Hev : events Script.truncated_call =
    [BackendCall (initial_request (Script.generator [inr Script.truncated_reply])
                    "q" None None (init 0)) (inr Script.truncated_reply)])
    by (vm_compute; reflexivity).
  assert (Hnot : HandleToolExecution ∉ events Script.truncated_call)
    by (apply not_entered_tool_path; reflexivity).
  split; [exact Hev|]. split; [reflexivity|]. split; [exact Hnot|].
  exact (missing_text_is_returned
           (Script.generator [inr Script.truncated_reply]) "q" None None None
           (init 0) _ _ _ Hev eq_refl Hnot).
Defined.

(** C9 at a call with the history "User: hi". *)
Lemma C9_witness :
  Some "User: hi" = Some "User: hi" /\ "User: hi" <> EmptyString /\
  (forall req, req ∈ backend_requests (events Script.call_with_history) ->
     sent_system_instruction req =
     Some (PDict [("parts", PList [PDict [("text",
             PStr (SYSTEM_PROMPT +:+ "

Previous conversation:
" +:+ "User: hi"))]])])).
Proof.
  split; [reflexivity|]. split; [discriminate|].
  refine (proj2 (proj2 (C9_system_content_sent
                   (Script.generator [inr Script.hello_reply]) "q"
                   (Some "User: hi") None None (init 0)))
            "User: hi" eq_refl _).
  discriminate.
Defined.

(** C5 at a search round whose tool manager raises. *)
Lemma C5_witness :
  ToolCall "search_course_content" {["query" := PStr "default query"]}
    (inl (Raised "boom")) ∈ events Script.failed_round /\
  outcome Script.failed_round = inl (Raised "boom") /\
  exists req1, backend_requests (events Script.failed_round) = [req1] /\
               req_contents req1 = [user_turn "q"].
Proof.
  assert (Hin : ToolCall "search_course_content" {["query" := PStr "default query"]}
                  (inl (Raised "boom")) ∈ events Script.failed_round)
    by (apply (list_elem_of_lookup_2 _ 2); vm_compute; reflexivity).
  split; [exact Hin|].
  exact (C5_tool_failure_aborts
           (Script.generator [inr Script.search_reply; inr Script.answer_reply])
           "q" None (Some [Script.search_tool])
           (Some (Script.failing_tool "boom")) (init 0) _ _ _ Hin).
Defined.

(** C4 (as amended) at a search round with one function call. *)
Lemma C4_witness :
  let self := Script.generator [inr Script.search_reply; inr Script.answer_reply] in
  let tools := Some [Script.search_tool] in
  let c := {| finish_reason := "STOP"; content_parts := [Script.search_call_part] |} in
  let req2 :=
    {| req_model := "gemini";
       req_contents :=
         [user_turn "q"; model_turn [Script.search_call_part];
          {| role := "user";
             parts := [FunctionResponse "search_course_content" (PStr "found")] |}];
       req_config := Some (config_written None tools initial_base_params) |} in
  let rest :=
    [HandleToolExecution;
     ToolCall "search_course_content" {["query" := PStr "default query"]}
       (inr (PStr "found"));
     BackendCall req2 (inr Script.answer_reply)] in
  events Script.search_round =
    BackendCall (initial_request self "q" None tools (init 0))
      (inr Script.search_reply) :: rest /\
  candidates Script.search_reply = [c] /\
  BackendCall req2 (inr Script.answer_reply) ∈ rest /\
  tool_invocations rest = invocation_of <$> function_calls (content_parts c) /\
  length (tool_invocations rest) = length (function_calls (content_parts c)) /\
  (tool_outputs rest).*1 = fc_name <$> function_calls (content_parts c) /\
  req_contents req2 =
    ([user_turn "q"; model_turn (content_parts c)]
     ++ tool_result_turn (tool_outputs rest))%list /\
  length (tool_result_turns (req_contents req2)) =
    match function_calls (content_parts c) with [] => 0 | _ => 1 end.
Proof.
  cbv zeta.
  match goal with |- ?Hev /\ ?Hc /\ ?Hin /\ _ =>
    assert (H1 : Hev) by (vm_compute; reflexivity);
    assert (H2 : Hc) by reflexivity;
    assert (H3 : Hin) by (apply (list_elem_of_lookup_2 _ 2); reflexivity)
  end.
  split; [exact H1|]. split; [exact H2|]. split; [exact H3|].
  exact (C4_tool_calls_in_order
           (Script.generator [inr Script.search_reply; inr Script.answer_reply])
           "q" None (Some [Script.search_tool]) (Some Script.found_tool) (init 0)
           _ _ _ _ _ _ _ H1 H2 H3).
Defined.

(** C10 at a round whose reply is plain text. *)
Lemma C10_witness :
  let self := Script.generator [inr Script.hello_reply; inr Script.answer_reply] in
  let c := {| finish_reason := "STOP"; content_parts := [Script.text_part "hello"] |} in
  let req2 :=
    {| req_model := "gemini";
       req_contents := [user_turn "q"; model_turn [Script.text_part "hello"]];
       req_config := Some (config_written None None initial_base_params) |} in
  let rest := [HandleToolExecution; BackendCall req2 (inr Script.answer_reply)] in
  events Script.plain_round =
    BackendCall (initial_request self "q" None None (init 0))
      (inr Script.hello_reply) :: rest /\
  candidates Script.hello_reply = [c] /\
  finish_reason c = "STOP" /\
  function_calls (content_parts c) = [] /\
  exists req2' out2,
    rest = [HandleToolExecution; BackendCall req2' out2] /\
    req_contents req2' = [user_turn "q"; model_turn (content_parts c)] /\
    tool_result_turns (req_contents req2') = [] /\
    outcome Script.plain_round = text_of out2.
Proof.
  cbv zeta.
  match goal with |- ?Hev /\ _ =>
    assert (H1 : Hev) by (vm_compute; reflexivity)
  end.
  split; [exact H1|]. split; [reflexivity|]. split; [reflexivity|].
  split; [reflexivity|].
  exact (C10_no_tool_calls_still_follow_up
           (Script.generator [inr Script.hello_reply; inr Script.answer_reply])
           "q" None None Script.found_tool (init 0) _ _ _ _ _
           H1 eq_refl eq_refl eq_refl).
Defined.

(** * Further properties of the two functions *)

Section Further.

Context {W : Type}.

Implicit Types (s : state W) (tm : tool_manager W) (self : AIGenerator W).

Ltac by_call_shape self query hist tools otm s :=
  destruct (generate_response_shape self query hist tools otm s)
    as [e0 st Hcl|resp0 st Hcl Hcand|resp0 c0 cs0 st Hcl Hcand Hdirect
       |resp0 c0 cs0 tm0 tevs e0 st Hcl Hcand Htm Hstop Htools Hfail Hpre
       |resp0 c0 cs0 tm0 tevs req0 out0 st Hcl Hcand Htm Hstop Htools Hfail Hinv
          Hlen Hmodel Hcontents Hsys Hcfg];
  cbn [events outcome final].

Lemma dict_falsy_empty (d : gmap string pyval) :
  dict_truthy d = false -> d = ∅.
Proof.
  unfold dict_truthy. intros H. apply negb_false_iff, Nat.eqb_eq in H.
  by apply map_size_empty_iff.
Qed.

Lemma dict_truthy_lookup (d : gmap string pyval) k v :
  d !! k = Some v -> dict_truthy d = true.
Proof.
  intros H. destruct (dict_truthy d) eqn:Hd; [done|].
  apply dict_falsy_empty in Hd as ->. by rewrite lookup_empty in H.
Qed.

Lemma config_written_other hist tools (d : gmap string pyval) k :
  k <> "system_instruction" -> k <> "tools" ->
  config_written hist tools d !! k = d !! k.
Proof.
  intros H1 H2. unfold config_written.
  destruct (tools_truthy tools); by rewrite ?lookup_insert_ne.
Qed.

Lemma config_written_tools hist tools (d : gmap string pyval) :
  config_written hist tools d !! "tools" =
  if tools_truthy tools then Some (PList (gemini_tool <$> default [] tools))
  else d !! "tools".
Proof.
  unfold config_written. destruct (tools_truthy tools).
  - apply lookup_insert_eq.
  - by rewrite lookup_insert_ne.
Qed.

Lemma config_written_truthy hist tools (d : gmap string pyval) :
  dict_truthy (config_written hist tools d) = true.
Proof.
  unfold config_written. destruct (tools_truthy tools); apply dict_truthy_insert.
Qed.

Lemma reachable_base_params s :
  reachable s ->
  base_params s !! "temperature" = Some (PInt 0) /\
  base_params s !! "max_output_tokens" = Some (PInt 800).
Proof.
  induction 1 as [w|s w _ IH|self query hist tools otm s _ [IH1 IH2]].
  - split; reflexivity.
  - exact IH.
  - rewrite generate_response_base_params. unfold initial_state.
    cbn [base_params]. destruct (dict_truthy (base_params s)); [|done].
    by rewrite !config_written_other.
Qed.

(** A call changes the dictionary of [self.base_params] at the keys
    "system_instruction" and "tools" at most: every other entry - present or
    absent - is after the call what it was before. *)
Theorem base_params_frame self query hist tools otm s k :
  k <> "system_instruction" -> k <> "tools" ->
  base_params (final (generate_response self query hist tools otm s)) !! k =
  base_params s !! k.
Proof.
  intros H1 H2. rewrite generate_response_base_params. unfold initial_state.
  cbn [base_params]. destruct (dict_truthy (base_params s)); [|done].
  by apply config_written_other.
Qed.

(** On an instance built by [__init__] and used for any number of calls,
    every request of every call is sent with a config that holds temperature
    0 and max_output_tokens 800. *)
Theorem generation_settings_invariant self query hist tools otm s :
  reachable s ->
  forall req,
    req ∈ backend_requests (events (generate_response self query hist tools otm s)) ->
    exists d, req_config req = Some d /\
              d !! "temperature" = Some (PInt 0) /\
              d !! "max_output_tokens" = Some (PInt 800).
Proof.
  intros [Ht Hm]%reachable_base_params req Hin.
  pose proof (dict_truthy_lookup _ _ _ Ht) as Hbp.
  exists (config_written hist tools (base_params s)).
  split; [by apply (follow_up_sends_initial_config self query hist tools otm s)|].
  by rewrite !config_written_other.
Qed.

(** Tool declarations outlive the call they were passed to: after a call
    with declarations, a later call on the same instance without any still
    sends the earlier declarations in every request. *)
Theorem earlier_tools_sent_by_later_call self
    query1 hist1 tools1 otm1 query2 hist2 tools2 otm2 s :
  dict_truthy (base_params s) = true ->
  tools_truthy tools1 = true ->
  tools_truthy tools2 = false ->
  let s1 := final (generate_response self query1 hist1 tools1 otm1 s) in
  forall req,
    req ∈ backend_requests (events (generate_response self query2 hist2 tools2 otm2 s1)) ->
    sent_tools req = Some (PList (gemini_tool <$> default [] tools1)).
Proof.
  intros Hbp Ht1 Ht2 s1 req Hin.
  assert (Hs1 : base_params s1 = config_written hist1 tools1 (base_params s)).
  { unfold s1. rewrite generate_response_base_params. unfold initial_state.
    cbn [base_params]. by rewrite Hbp. }
  assert (Htruthy : dict_truthy (base_params s1) = true)
    by (rewrite Hs1; apply config_written_truthy).
  unfold sent_tools.
  rewrite (follow_up_sends_initial_config self query2 hist2 tools2 otm2 s1
             Htruthy req Hin).
  by rewrite config_written_tools, Ht2, Hs1, config_written_tools, Ht1.
Qed.

(** On an instance whose dictionary has no "tools" entry - a new instance,
    for one - a call without tool declarations sends no "tools" entry in any
    request. *)
Theorem no_tools_sent_without_declarations self query hist tools otm s :
  dict_truthy (base_params s) = true ->
  base_params s !! "tools" = None ->
  tools_truthy tools = false ->
  forall req,
    req ∈ backend_requests (events (generate_response self query hist tools otm s)) ->
    sent_tools req = None.
Proof.
  intros Hbp Hnone Ht req Hin. unfold sent_tools.
  rewrite (follow_up_sends_initial_config self query hist tools otm s Hbp req Hin).
  by rewrite config_written_tools, Ht.
Qed.

(** When tool declarations are passed, the initial request carries under
    "tools" a list with one dictionary {"function_declarations": [tool]} per
    declaration, in the order given: as many entries as declarations, and at
    every position the declaration of that position, alone in its list. *)
Theorem initial_request_wraps_tools self query hist tool tools otm s :
  exists req out rest entries,
    events (generate_response self query hist (Some (tool :: tools)) otm s) =
      BackendCall req out :: rest /\
    req_config req ≫= (.!! "tools") = Some (PList entries) /\
    length entries = length (tool :: tools) /\
    forall i t, (tool :: tools) !! i = Some t ->
      entries !! i = Some (PDict [("function_declarations", PList [t])]).
Proof.
  assert (H1 : sent_tools (initial_request self query hist (Some (tool :: tools)) s) =
               Some (PList (gemini_tool <$> tool :: tools))).
  { unfold sent_tools, initial_request. cbn [req_config].
    by rewrite config_written_tools. }
  assert (H2 : forall i t, (tool :: tools) !! i = Some t ->
            (gemini_tool <$> tool :: tools) !! i =
            Some (PDict [("function_declarations", PList [t])])).
  { intros i t Hi. by rewrite list_lookup_fmap, Hi. }
  by_call_shape self query hist (Some (tool :: tools)) otm s;
    eexists _, _, _, (gemini_tool <$> tool :: tools);
    (split; [reflexivity|]); (split; [exact H1|]);
    (split; [by rewrite length_fmap | exact H2]).
Qed.

(** The keyword arguments a function call is executed with contain every
    argument the model supplied, unchanged; the only key that can be added is
    "query"; and for any tool other than "search_course_content", or when
    "query" was supplied, they are exactly the supplied arguments (none at all
    when [args] is [None] or empty). *)
Theorem tool_args_keep_supplied_arguments (fc : function_call) :
  let given := default ∅ (fc_args fc) in
  given ⊆ tool_args_of fc /\
  dom (tool_args_of fc) ⊆ dom given ∪ {["query"]} /\
  (String.eqb (fc_name fc) "search_course_content" = false \/
   is_Some (given !! "query") ->
   tool_args_of fc = given).
Proof.
  cbn zeta. unfold tool_args_of.
  assert (Hg : match fc_args fc with
               | Some a => if dict_truthy a then a else ∅
               | None => ∅
               end = default ∅ (fc_args fc)).
  { destruct (fc_args fc) as [a|]; [|done]. cbn.
    destruct (dict_truthy a) eqn:Ha; [done|]. by apply dict_falsy_empty in Ha. }
  rewrite Hg. set (given := default ∅ (fc_args fc)).
  destruct (given !! "query") as [v|] eqn:Hq.
  - split; [done|]. split; [set_solver|]. done.
  - destruct (String.eqb (fc_name fc) "search_course_content") eqn:Hn.
    + split; [by apply insert_subseteq|]. split.
      * by rewrite dom_insert_L, (comm_L (∪)).
      * intros [Hfalse|[v Hv]]; discriminate.
    + split; [done|]. split; [set_solver|]. done.
Qed.

(** A tool is executed only on request: every call of the tool manager made
    during a call has the name of a function-call part of the first candidate
    of the initial reply - a reply that stopped with "STOP" - and the
    arguments resolved from that part. *)
Theorem tool_calls_are_requested self query hist tools otm s name kwargs out :
  ToolCall name kwargs out ∈ events (generate_response self query hist tools otm s) ->
  exists req resp c cs rest fc,
    events (generate_response self query hist tools otm s) =
      BackendCall req (inr resp) :: rest /\
    candidates resp = c :: cs /\
    finish_reason c = "STOP" /\
    fc ∈ function_calls (content_parts c) /\
    name = fc_name fc /\ kwargs = tool_args_of fc.
Proof.
  assert (Hfind : forall (tevs : list event) (fcs : list function_call),
    tool_invocations tevs `prefix_of` (invocation_of <$> fcs) ->
    ToolCall name kwargs out ∈ tevs ->
    exists fc, fc ∈ fcs /\ name = fc_name fc /\ kwargs = tool_args_of fc).
  { intros tevs fcs [more Hpre] Hin.
    assert (Hnk : (name, kwargs) ∈ tool_invocations tevs).
    { apply list_elem_of_omap. by exists (ToolCall name kwargs out). }
    assert (Hnk' : (name, kwargs) ∈ invocation_of <$> fcs).
    { rewrite Hpre. apply elem_of_app. by left. }
    apply list_elem_of_fmap in Hnk' as (fc & [= -> ->] & Hfc). by exists fc. }
  by_call_shape self query hist tools otm s; intros Hin;
    try (apply list_elem_of_singleton in Hin; discriminate Hin).
  - apply elem_of_cons in Hin as [[=]|Hin]. apply elem_of_cons in Hin as [[=]|Hin].
    destruct (Hfind tevs _ Hpre Hin) as (fc & Hfc & Hn & Hk).
    exists (initial_request self query hist tools s), resp0, c0, cs0.
    eexists _, fc. split; [reflexivity|]. split; [done|].
    split; [by apply String.eqb_eq|]. done.
  - apply elem_of_cons in Hin as [[=]|Hin]. apply elem_of_cons in Hin as [[=]|Hin].
    apply elem_of_app in Hin as [Hin|Hin];
      [|apply list_elem_of_singleton in Hin; discriminate Hin].
    assert (Hpre : tool_invocations tevs `prefix_of`
                     (invocation_of <$> function_calls (content_parts c0)))
      by (by rewrite Hinv).
    destruct (Hfind tevs _ Hpre Hin) as (fc & Hfc & Hn & Hk).
    exists (initial_request self query hist tools s), resp0, c0, cs0.
    eexists _, fc. split; [reflexivity|]. split; [done|].
    split; [by apply String.eqb_eq|]. done.
Qed.

(** The reply to the follow-up request is not examined: whenever a second
    request was sent, it is the last thing the call does, and the call
    returns the [text] of its reply as it is ([None] included) or raises what
    the client raised - whatever candidates, stop reason or function calls
    that reply has. *)
Theorem follow_up_reply_returned_unexamined self query hist tools otm s req1 req2 :
  backend_requests (events (generate_response self query hist tools otm s)) =
    [req1; req2] ->
  exists before out2,
    events (generate_response self query hist tools otm s) =
      (before ++ [BackendCall req2 out2])%list /\
    outcome (generate_response self query hist tools otm s) = text_of out2.
Proof.
  by_call_shape self query hist tools otm s; try discriminate.
  - apply only_tool_calls_no_backend in Htools as [Hnone _].
    unfold backend_requests in *. cbn. rewrite Hnone. discriminate.
  - rewrite backend_requests_followup by done. intros [= _ <-].
    eexists (_ :: _ :: tevs), out0. split; reflexivity.
Qed.

(** An exception of the client - on the initial or on the follow-up request
    - ends the call at once and is what the call raises: nothing is retried
    and nothing is done after it. *)
Theorem client_exception_passed_on self query hist tools otm s req e :
  BackendCall req (inl e) ∈ events (generate_response self query hist tools otm s) ->
  outcome (generate_response self query hist tools otm s) = inl e /\
  exists before,
    events (generate_response self query hist tools otm s) =
      (before ++ [BackendCall req (inl e)])%list.
Proof.
  by_call_shape self query hist tools otm s; intros Hin.
  - apply list_elem_of_singleton in Hin as [= -> ->]. split; [done|]. by exists [].
  - apply list_elem_of_singleton in Hin. discriminate Hin.
  - apply list_elem_of_singleton in Hin. discriminate Hin.
  - apply elem_of_cons in Hin as [[=]|Hin]. apply elem_of_cons in Hin as [[=]|Hin].
    by apply backend_call_in_tools in Hin.
  - apply elem_of_cons in Hin as [[=]|Hin]. apply elem_of_cons in Hin as [[=]|Hin].
    apply elem_of_app in Hin as [Hin|Hin]; [by apply backend_call_in_tools in Hin|].
    apply list_elem_of_singleton in Hin as [= -> <-]. split; [done|].
    by exists (BackendCall (initial_request self query hist tools s) (inr resp0)
               :: HandleToolExecution :: tevs).
Qed.

(** A reply without candidates makes the call raise [IndexError] right after
    the initial request, with or without a tool manager and whether or not the
    reply has a text: no tool is called and no second request is sent. *)
Theorem reply_without_candidates_raises self query hist tools otm s req resp rest :
  events (generate_response self query hist tools otm s) =
    BackendCall req (inr resp) :: rest ->
  candidates resp = [] ->
  rest = [] /\ outcome (generate_response self query hist tools otm s) = inl IndexError.
Proof.
  by_call_shape self query hist tools otm s; intros [= _ <- <-] Hnil;
    try congruence. done.
Qed.

(** Every request of a call names the model of the instance, and its
    conversation starts with the user turn that holds the query. *)
Theorem requests_carry_model_and_query self query hist tools otm s req :
  req ∈ backend_requests (events (generate_response self query hist tools otm s)) ->
  req_model req = model_name self /\
  exists later,
    req_contents req = {| role := "user"; parts := [TextPart query] |} :: later.
Proof.
  assert (H1 : req_model (initial_request self query hist tools s) = model_name self /\
               exists later, req_contents (initial_request self query hist tools s) =
                             user_turn query :: later)
    by (split; [reflexivity | by exists []]).
  by_call_shape self query hist tools otm s; intros Hin.
  - apply list_elem_of_singleton in Hin as ->. exact H1.
  - apply list_elem_of_singleton in Hin as ->. exact H1.
  - apply list_elem_of_singleton in Hin as ->. exact H1.
  - apply only_tool_calls_no_backend in Htools as [Hnone _].
    unfold backend_requests in *. cbn in Hin. rewrite Hnone in Hin.
    apply list_elem_of_singleton in Hin as ->. exact H1.
  - rewrite backend_requests_followup in Hin by done.
    apply elem_of_cons in Hin as [->|Hin]; [exact H1|].
    apply list_elem_of_singleton in Hin as ->. split; [exact Hmodel|].
    rewrite Hcontents. by eexists.
Qed.

Lemma execute_tool_calls_failure tm (ps : list part) :
  forall (acc : list content_part) s e,
    outcome (execute_tool_calls tm ps acc s) = inl e ->
    exists evs name kwargs,
      events (execute_tool_calls tm ps acc s) =
        (evs ++ [ToolCall name kwargs (inl e)])%list /\
      tool_failures evs = [].
Proof.
  induction ps as [|p ps IH]; intros acc s e; [discriminate|].
  cbn [execute_tool_calls].
  destruct (part_function_call p) as [fc|]; [|apply IH].
  unfold bind, execute_tool.
  destruct (tm (fc_name fc) (tool_args_of fc) (world s)) as [[e'|v] w].
  - intros [= ->]. by exists [], (fc_name fc), (tool_args_of fc).
  - specialize (IH (acc ++ [FunctionResponse (fc_name fc) v])%list
                   {| base_params := base_params s; world := w |} e).
    destruct (execute_tool_calls tm ps _ _) as [out sT evs].
    cbn [outcome events] in *. intros Hout.
    destruct (IH Hout) as (evs0 & name & kwargs & -> & Hnone).
    exists (ToolCall (fc_name fc) (tool_args_of fc) (inr v) :: evs0), name, kwargs.
    split; [reflexivity | exact Hnone].
Qed.

(** The loop over the parts stops at the first tool that raises: the failed
    invocation is the last thing the call does, no invocation before it
    failed, and the invocations made are an initial segment of the function
    calls of the reply - the later ones are never executed. *)
Theorem tool_loop_stops_at_first_failure self query hist tools otm s
    req resp c cs rest name kwargs e :
  events (generate_response self query hist tools otm s) =
    BackendCall req (inr resp) :: rest ->
  candidates resp = c :: cs ->
  ToolCall name kwargs (inl e) ∈ rest ->
  (exists before,
     rest = (before ++ [ToolCall name kwargs (inl e)])%list /\
     tool_failures before = []) /\
  tool_invocations rest `prefix_of` (invocation_of <$> function_calls (content_parts c)).
Proof.
  rewrite generate_response_run. cbn zeta.
  set (req1 := initial_request self query hist tools s).
  destruct (client self req1 (world s)) as [[e1|resp1] w1]; cbn [fst snd];
    [intros [=]|].
  destruct (candidates resp1) as [|c1 cs1] eqn:Hc1;
    [intros [= _ <- <-] _ Hin; by apply elem_of_nil in Hin|].
  destruct otm as [tm|];
    [|intros [= _ <- <-] _ Hin; by apply elem_of_nil in Hin].
  destruct (String.eqb (finish_reason c1) "STOP");
    [|intros [= _ <- <-] _ Hin; by apply elem_of_nil in Hin].
  rewrite (handle_tool_execution_run _ _ _ _ _ c1 cs1 Hc1). cbn zeta.
  set (s1 := with_world (initial_state hist tools s) w1).
  destruct (execute_tool_calls_spec tm (content_parts c1) [] s1)
    as (_ & Hev & Hpre & Hres).
  pose proof (execute_tool_calls_failure tm (content_parts c1) [] s1) as Hlast.
  destruct (execute_tool_calls tm (content_parts c1) [] s1) as [[e'|results] sT tevs];
    cbn [outcome final events after_event] in *.
  - intros [= _ <- <-] Hc Hin. assert (c = c1) as -> by congruence.
    destruct (Hlast e' eq_refl) as (evs & n & k & -> & Hnone).
    split; [|exact Hpre].
    apply elem_of_cons in Hin as [[=]|Hin].
    apply elem_of_app in Hin as [Hin|Hin].
    + apply tool_failure_elem in Hin. rewrite Hnone in Hin.
      by apply elem_of_nil in Hin.
    + apply list_elem_of_singleton in Hin as [= -> -> ->].
      by exists (HandleToolExecution :: evs).
  - intros [= _ <- <-] Hc Hin. destruct Hres as (_ & _ & _ & Hnone).
    apply elem_of_cons in Hin as [[=]|Hin].
    apply elem_of_app in Hin as [Hin|Hin].
    + apply tool_failure_elem in Hin. rewrite Hnone in Hin.
      by apply elem_of_nil in Hin.
    + apply list_elem_of_singleton in Hin. discriminate Hin.
Qed.

End Further.

(** ** The further properties at concrete calls *)

(** The frame property at the key "temperature". *)
Lemma base_params_frame_witness :
  "temperature" <> "system_instruction" /\ "temperature" <> "tools" /\
  base_params (final Script.search_round) !! "temperature" =
  base_params (init 0) !! "temperature".
Proof.
  split; [discriminate|]. split; [discriminate|].
  apply (base_params_frame
           (Script.generator [inr Script.search_reply; inr Script.answer_reply])
           "q" None (Some [Script.search_tool]) (Some Script.found_tool) (init 0)
           "temperature"); discriminate.
Defined.

(** The settings of the second call on an instance. *)
Lemma generation_settings_invariant_witness :
  reachable (final (generate_response Script.twice "q" None
                      (Some [Script.search_tool]) (Some Script.found_tool) (init 0))) /\
  (forall req, req ∈ backend_requests (events Script.later_call) ->
     exists d, req_config req = Some d /\
               d !! "temperature" = Some (PInt 0) /\
               d !! "max_output_tokens" = Some (PInt 800)).
Proof.
  assert (Hr : reachable (final (generate_response Script.twice "q" None
                      (Some [Script.search_tool]) (Some Script.found_tool) (init 0))))
    by (apply reachable_call, reachable_init).
  split; [exact Hr|].
  exact (generation_settings_invariant Script.twice "again" None None None _ Hr).
Defined.

(** The declarations of the first call in the request of the second. *)
Lemma earlier_tools_sent_by_later_call_witness :
  dict_truthy (base_params (init 0)) = true /\
  tools_truthy (Some [Script.search_tool]) = true /\
  tools_truthy None = false /\
  (forall req, req ∈ backend_requests (events Script.later_call) ->
     sent_tools req = Some (PList (gemini_tool <$> [Script.search_tool]))).
Proof.
  split; [reflexivity|]. split; [reflexivity|]. split; [reflexivity|].
  exact (earlier_tools_sent_by_later_call Script.twice
           "q" None (Some [Script.search_tool]) (Some Script.found_tool)
           "again" None None None (init 0) eq_refl eq_refl eq_refl).
Defined.

(** A new instance called without declarations. *)
Lemma no_tools_sent_without_declarations_witness :
  dict_truthy (base_params (init 0)) = true /\
  base_params (init 0) !! "tools" = None /\
  tools_truthy None = false /\
  (forall req, req ∈ backend_requests (events Script.plain_round) ->
     sent_tools req = None).
Proof.
  split; [reflexivity|]. split; [reflexivity|]. split; [reflexivity|].
  exact (no_tools_sent_without_declarations
           (Script.generator [inr Script.hello_reply; inr Script.answer_reply])
           "q" None None (Some Script.found_tool) (init 0)
           eq_refl eq_refl eq_refl).
Defined.

(** Another tool than the search tool: the arguments are passed as given. *)
Lemma tool_args_keep_supplied_arguments_witness :
  String.eqb (fc_name Script.outline_call) "search_course_content" = false /\
  tool_args_of Script.outline_call = default ∅ (fc_args Script.outline_call).
Proof.
  split; [reflexivity|].
  apply (proj2 (proj2 (tool_args_keep_supplied_arguments Script.outline_call))).
  left. reflexivity.
Defined.

(** The one tool call of the search round. *)
Lemma tool_calls_are_requested_witness :
  ToolCall "search_course_content" {["query" := PStr "default query"]}
    (inr (PStr "found")) ∈ events Script.search_round /\
  exists req resp c cs rest fc,
    events Script.search_round = BackendCall req (inr resp) :: rest /\
    candidates resp = c :: cs /\
    finish_reason c = "STOP" /\
    fc ∈ function_calls (content_parts c) /\
    "search_course_content" = fc_name fc /\
    {["query" := PStr "default query"]} = tool_args_of fc.
Proof.
  assert (Hin : ToolCall "search_course_content" {["query" := PStr "default query"]}
                  (inr (PStr "found")) ∈ events Script.search_round)
    by (apply (list_elem_of_lookup_2 _ 2); vm_compute; reflexivity).
  split; [exact Hin|].
  exact (tool_calls_are_requested
           (Script.generator [inr Script.search_reply; inr Script.answer_reply])
           "q" None (Some [Script.search_tool]) (Some Script.found_tool) (init 0)
           _ _ _ Hin).
Defined.

(** A follow-up reply without candidates: its text is returned all the same. *)
Lemma follow_up_reply_returned_unexamined_witness :
  let req1 := initial_request Script.unexamined "q" None
                (Some [Script.search_tool]) (init 0) in
  let req2 :=
    {| req_model := "gemini";
       req_contents :=
         [user_turn "q"; model_turn [Script.search_call_part];
          {| role := "user";
             parts := [FunctionResponse "search_course_content" (PStr "found")] |}];
       req_config := Some (config_written None (Some [Script.search_tool])
                             initial_base_params) |} in
  backend_requests (events Script.unexamined_round) = [req1; req2] /\
  candidates Script.no_candidates_reply = [] /\
  outcome Script.unexamined_round = inr (Some "late") /\
  exists before out2,
    events Script.unexamined_round = (before ++ [BackendCall req2 out2])%list /\
    outcome Script.unexamined_round = text_of out2.
Proof.
  cbv zeta.
  match goal with |- ?Hreqs /\ _ =>
    assert (H1 : Hreqs) by (vm_compute; reflexivity)
  end.
  split; [exact H1|]. split; [reflexivity|]. split; [reflexivity|].
  exact (follow_up_reply_returned_unexamined Script.unexamined "q" None
           (Some [Script.search_tool]) (Some Script.found_tool) (init 0) _ _ H1).
Defined.

(** The client raises on the initial request. *)
Lemma client_exception_passed_on_witness :
  let req := initial_request Script.quota "q" None None (init 0) in
  BackendCall req (inl (Raised "quota")) ∈ events Script.quota_call /\
  outcome Script.quota_call = inl (Raised "quota") /\
  exists before,
    events Script.quota_call = (before ++ [BackendCall req (inl (Raised "quota"))])%list.
Proof.
  cbv zeta.
  match goal with |- ?Hin /\ _ =>
    assert (H1 : Hin) by (apply (list_elem_of_lookup_2 _ 0); vm_compute; reflexivity)
  end.
  split; [exact H1|].
  exact (client_exception_passed_on Script.quota "q" None None
           (Some Script.found_tool) (init 0) _ _ H1).
Defined.

(** A reply without candidates, with a tool manager passed. *)
Lemma reply_without_candidates_raises_witness :
  let self := Script.generator [inr Script.no_candidates_reply] in
  events Script.empty_call =
    BackendCall (initial_request self "q" None None (init 0))
      (inr Script.no_candidates_reply) :: [] /\
  candidates Script.no_candidates_reply = [] /\
  @nil event = [] /\ outcome Script.empty_call = inl IndexError.
Proof.
  cbv zeta.
  match goal with |- ?Hev /\ _ =>
    assert (H1 : Hev) by (vm_compute; reflexivity)
  end.
  split; [exact H1|]. split; [reflexivity|].
  exact (reply_without_candidates_raises
           (Script.generator [inr Script.no_candidates_reply]) "q" None None
           (Some Script.found_tool) (init 0) _ _ _ H1 eq_refl).
Defined.

(** The follow-up request of the search round. *)
Lemma requests_carry_model_and_query_witness :
  let req2 :=
    {| req_model := "gemini";
       req_contents :=
         [user_turn "q"; model_turn [Script.search_call_part];
          {| role := "user";
             parts := [FunctionResponse "search_course_content" (PStr "found")] |}];
       req_config := Some (config_written None (Some [Script.search_tool])
                             initial_base_params) |} in
  req2 ∈ backend_requests (events Script.search_round) /\
  req_model req2 = "gemini" /\
  exists later,
    req_contents req2 = {| role := "user"; parts := [TextPart "q"] |} :: later.
Proof.
  cbv zeta.
  match goal with |- ?Hin /\ _ =>
    assert (H1 : Hin) by (apply (list_elem_of_lookup_2 _ 1); vm_compute; reflexivity)
  end.
  split; [exact H1|].
  exact (requests_carry_model_and_query
           (Script.generator [inr Script.search_reply; inr Script.answer_reply])
           "q" None (Some [Script.search_tool]) (Some Script.found_tool) (init 0)
           _ H1).
Defined.

(** Two function calls and a tool manager that raises: one invocation only. *)
Lemma tool_loop_stops_at_first_failure_witness :
  let self := Script.generator [inr Script.two_calls_reply; inr Script.answer_reply] in
  let c := {| finish_reason := "STOP";
              content_parts := [Script.search_call_part; Script.search_call_part] |} in
  let failed := ToolCall "search_course_content" {["query" := PStr "default query"]}
                  (inl (Raised "boom")) in
  let rest := [HandleToolExecution; failed] in
  events Script.two_calls_failed =
    BackendCall (initial_request self "q" None None (init 0))
      (inr Script.two_calls_reply) :: rest /\
  candidates Script.two_calls_reply = [c] /\
  failed ∈ rest /\
  length (function_calls (content_parts c)) = 2 /\
  length (tool_invocations rest) = 1 /\
  (exists before, rest = (before ++ [failed])%list /\ tool_failures before = []) /\
  tool_invocations rest `prefix_of` (invocation_of <$> function_calls (content_parts c)).
Proof.
  cbv zeta.
  match goal with |- ?Hev /\ ?Hc /\ ?Hin /\ _ =>
    assert (H1 : Hev) by (vm_compute; reflexivity);
    assert (H2 : Hc) by reflexivity;
    assert (H3 : Hin) by (apply (list_elem_of_lookup_2 _ 1); reflexivity)
  end.
  split; [exact H1|]. split; [exact H2|]. split; [exact H3|].
  split; [reflexivity|]. split; [reflexivity|].
  exact (tool_loop_stops_at_first_failure
           (Script.generator [inr Script.two_calls_reply; inr Script.answer_reply])
           "q" None None (Some (Script.failing_tool "boom")) (init 0)
           _ _ _ _ _ _ _ _ H1 H2 H3).
Defined.
